(** * deep-research: src/ai/providers.ts

    A shallow embedding of the two pieces of logic in [providers.ts]:

    - [getSelectedModel], the provider switch with its fallback to the
      OpenAI handle, together with the module-level construction of the
      four model handles from the process environment;
    - [trimPrompt], the recursive routine that shortens a prompt until the
      encoder measures it within the context size.

    JavaScript strings are modelled by [string]; [String.length] plays the
    role of [.length].  JavaScript numbers are only used here on lengths,
    token counts and an integral context size, so they are modelled by [Z].
    The token encoder (js-tiktoken) and the text splitter ([./text-splitter])
    are collaborators of [trimPrompt] and are kept as parameters.  The
    context size is always passed explicitly: its default value, read from
    the environment, plays no part in what follows. *)

From Stdlib Require Import ZArith Lia Ascii.
From stdpp Require Import base option list strings gmap.

Local Open Scope Z_scope.

(** ** JavaScript string primitives *)

Module JS.

(** [s.length], as a JavaScript number. *)
Definition length (s : string) : Z := Z.of_nat (String.length s).

(** [!s] on a string: only the empty string is falsy. *)
Definition is_falsy (s : string) : bool :=
  match s with
  | EmptyString => true
  | String _ _ => false
  end.

(** [s.slice(start, end)] for integral arguments: a negative index counts
    from the end of the string, both indices are clamped to [0, s.length],
    and an empty range gives the empty string. *)
Definition slice (s : string) (start end_ : Z) : string :=
  let len := length s in
  let from := if start <? 0 then Z.max (len + start) 0 else Z.min start len in
  let to := if end_ <? 0 then Z.max (len + end_) 0 else Z.min end_ len in
  let span := Z.max (to - from) 0 in
  String.substring (Z.to_nat from) (Z.to_nat span) s.

(** [a || b] on values that are a string or [undefined]: the left operand
    is kept when it is truthy, i.e. a non-empty string. *)
Definition or (a b : option string) : option string :=
  match a with
  | Some (String _ _) => a
  | _ => b
  end.

(** [a || d] where the right operand is a string: the result is a string. *)
Definition or_else (a : option string) (d : string) : string :=
  match a with
  | Some (String c s) => String c s
  | _ => d
  end.

(** [s.startsWith(p)]. *)
Definition startsWith (s p : string) : bool := String.prefix p s.

End JS.

(** ** trimPrompt *)

Definition MinChunkSize : Z := 140.

Section TrimPrompt.

(** [encoder.encode]: the token ids of a text. *)
Variable encode : string -> list N.

(** [new RecursiveCharacterTextSplitter({chunkSize, chunkOverlap}).splitText]:
    the ordered chunks of a text. *)
Variable splitText : Z -> Z -> string -> list string.

(** The body of [trimPrompt].  The source function is recursive without a
    syntactic measure, so the embedding counts nested calls: [fuel] is the
    call depth still allowed and [None] means that it was used up. *)
Fixpoint trimPrompt_fuel (fuel : nat) (prompt : string) (contextSize : Z)
  : option string :=
  match fuel with
  | O => None
  | S fuel' =>
    if JS.is_falsy prompt then Some EmptyString
    else
      let length := Z.of_nat (List.length (encode prompt)) in
      if length <=? contextSize then Some prompt
      else
        let overflowTokens := length - contextSize in
        let chunkSize := JS.length prompt - overflowTokens * 3 in
        if chunkSize <? MinChunkSize then Some (JS.slice prompt 0 MinChunkSize)
        else
          let trimmedPrompt := default EmptyString (splitText chunkSize 0 prompt !! 0%nat) in
          if JS.length trimmedPrompt =? JS.length prompt
          then trimPrompt_fuel fuel' (JS.slice prompt 0 chunkSize) contextSize
          else trimPrompt_fuel fuel' trimmedPrompt contextSize
  end.

(** [trimPrompt prompt contextSize]: the call with a depth allowance of one
    more than the number of characters of [prompt]. *)
Definition trimPrompt (prompt : string) (contextSize : Z) : option string :=
  trimPrompt_fuel (S (String.length prompt)) prompt contextSize.

(** The measured token count of a text. *)
Definition measure (text : string) : Z := Z.of_nat (List.length (encode text)).

(** [target_chars] of the specification: the estimated number of
    characters to keep. *)
Definition target_chars (text : string) (budget : Z) : Z :=
  JS.length text - (measure text - budget) * 3.

(** The candidate of the specification, [splitText(prompt)[0] ?? '']: the
    first chunk, or the empty text when there is none. *)
Definition candidate (text : string) (budget : Z) : string :=
  default EmptyString (splitText (target_chars text budget) 0 text !! 0%nat).

(** The text that the nested call is made on, when there is one: the hard
    cut if the candidate is as long as the text, the candidate otherwise. *)
Definition nextPrompt (text : string) (budget : Z) : string :=
  if JS.length (candidate text budget) =? JS.length text
  then JS.slice text 0 (target_chars text budget)
  else candidate text budget.

End TrimPrompt.

(** ** Provider construction *)

Inductive ProviderKind := OpenAIProvider | GoogleProvider | AzureProvider | MistralProvider.

(** What [createOpenAI], [createGoogleGenerativeAI], [createAzure] and
    [createMistral] are given.  A field that the call does not pass, or that
    it reads from an unset environment variable, is [None]. *)
Record Provider := {
  providerKind : ProviderKind;
  apiKey : option string;
  baseURL : option string;
  resourceName : option string
}.

(** The settings object passed with the model name. *)
Record ModelSettings := {
  reasoningEffort : option string;
  structuredOutputs : option bool
}.

(** A model handle: the provider it was made by, the model name and the
    settings, if any were given. *)
Record ModelHandle := {
  handleProvider : Provider;
  modelId : string;
  handleSettings : option ModelSettings
}.

(** The console: the warnings written so far, oldest first. *)
Definition console := list string.

Definition console_warn (msg : string) (out : console) : console := out ++ [msg].

Section Providers.

(** [process.env], read once when the module is loaded. *)
Variable env : gmap string string.

Definition openai : Provider :=
  {| providerKind := OpenAIProvider;
     apiKey := env !! "OPENAI_KEY";
     baseURL := Some (JS.or_else (env !! "OPENAI_ENDPOINT") "https://api.openai.com/v1");
     resourceName := None |}.

Definition google : Provider :=
  {| providerKind := GoogleProvider;
     apiKey := env !! "GOOGLE_KEY";
     baseURL := None;
     resourceName := None |}.

Definition azureApiKey : string :=
  JS.or_else (JS.or (env !! "AZURE_KEY") (env !! "AZURE_API_KEY")) "".

Definition mistralApiKey : string :=
  JS.or_else (JS.or (env !! "MISTRAL_KEY") (env !! "MISTRAL_API_KEY")) "".

(** [null] is [None]. *)
Definition azureProvider : option Provider :=
  if JS.is_falsy azureApiKey then None
  else Some {| providerKind := AzureProvider;
               apiKey := Some azureApiKey;
               baseURL := None;
               resourceName := env !! "AZURE_RESOURCE_NAME" |}.

Definition mistralProvider : option Provider :=
  if JS.is_falsy mistralApiKey then None
  else Some {| providerKind := MistralProvider;
               apiKey := Some mistralApiKey;
               baseURL := None;
               resourceName := None |}.

Definition customModel : string := JS.or_else (env !! "OPENAI_MODEL") "o3-mini".
Definition customGoogleModel : string := JS.or_else (env !! "GOOGLE_MODEL") "gemini-2.0-pro-exp-02-05".
Definition customAzureModel : string := JS.or_else (env !! "AZURE_MODEL") "gpt-4o-mini".
Definition customMistralModel : string := JS.or_else (env !! "MISTRAL_MODEL") "mistral-large-latest".

Definition o3MiniModel : ModelHandle :=
  {| handleProvider := openai;
     modelId := customModel;
     handleSettings :=
       Some {| reasoningEffort := if JS.startsWith customModel "o" then Some "medium" else None;
               structuredOutputs := Some true |} |}.

Definition googleModel : ModelHandle :=
  {| handleProvider := google;
     modelId := customGoogleModel;
     handleSettings := Some {| reasoningEffort := None; structuredOutputs := Some true |} |}.

Definition azureModel : option ModelHandle :=
  match azureProvider with
  | Some p =>
    Some {| handleProvider := p;
            modelId := customAzureModel;
            handleSettings := Some {| reasoningEffort := None; structuredOutputs := Some true |} |}
  | None => None
  end.

Definition mistralModel : option ModelHandle :=
  match mistralProvider with
  | Some p => Some {| handleProvider := p; modelId := customMistralModel; handleSettings := None |}
  | None => None
  end.

(** [getSelectedModel modelType]: the value returned ([None] would be
    [null]) and the console after the call.  The argument is the string the
    caller passes at run time; the [switch] compares it with [===]. *)
Definition getSelectedModel (modelType : string) (out : console)
  : option ModelHandle * console :=
  if String.eqb modelType "openai" then (Some o3MiniModel, out)
  else if String.eqb modelType "google" then (Some googleModel, out)
  else if String.eqb modelType "azure" then
    match azureModel with
    | Some _ => (azureModel, out)
    | None =>
      (Some o3MiniModel,
       console_warn "Azure API key not provided. Falling back to OpenAI model." out)
    end
  else if String.eqb modelType "mistral" then
    match mistralModel with
    | Some _ => (mistralModel, out)
    | None =>
      (Some o3MiniModel,
       console_warn "Mistral API key not provided. Falling back to OpenAI model." out)
    end
  else (Some o3MiniModel, out).

End Providers.

(** ** Stand-ins for the two collaborators

    The encoder is an external package and the splitter lives in
    [./text-splitter]; [trimPrompt] is stated over both as parameters.  The
    definitions below are small instances used to run it. *)

(** Modelled from the spec: the token encoder, "a deterministic, pure
    function of text" whose count is "generally smaller than the character
    count".  This instance makes one token of every four characters and
    one of a shorter remainder; the token id is the code of the group's
    first character. *)
Fixpoint groupEncoder (s : string) : list N :=
  match s with
  | EmptyString => []
  | String a (String _ (String _ (String _ rest))) => Ascii.N_of_ascii a :: groupEncoder rest
  | String a _ => [Ascii.N_of_ascii a]
  end.

(** A chunk that is still being filled is emitted unless it is empty. *)
Definition flushChunk (cur : string) : list string :=
  if JS.is_falsy cur then [] else [cur].

Definition newline : Ascii.ascii := Ascii.ascii_of_nat 10.

(** One pass over [text]: [cur] is the chunk being filled.  A line break
    closes the chunk (and is dropped), and so does reaching [chunkSize]
    characters. *)
Fixpoint lineSplit_go (chunkSize : nat) (cur text : string) : list string :=
  match text with
  | EmptyString => flushChunk cur
  | String c rest =>
    if Ascii.eqb c newline then flushChunk cur ++ lineSplit_go chunkSize EmptyString rest
    else if (chunkSize <=? String.length cur)%nat
         then flushChunk cur ++ lineSplit_go chunkSize (String c EmptyString) rest
         else lineSplit_go chunkSize (cur +:+ String c EmptyString) rest
  end.

(** Modelled from the spec: the text splitter of [./text-splitter], which
    "splits text into ordered chunks given a target chunk size and overlap",
    a chunk being "a contiguous substring" of the text, and which "does not
    guarantee exact character-size chunks".  This instance cuts at line
    breaks and cuts lines longer than the chunk size into pieces of that
    size; it has no use for the overlap, which [trimPrompt] sets to 0. *)
Definition lineSplitter (chunkSize chunkOverlap : Z) (text : string) : list string :=
  lineSplit_go (Z.to_nat chunkSize) EmptyString text.

(** Modelled from the spec: a splitter that finds nothing to cut at and
    gives the text back as its only chunk, the case in which "the splitter
    made no reduction". *)
Definition wholeSplitter (chunkSize chunkOverlap : Z) (text : string) : list string :=
  [text].

(** [n] copies of a character. *)
Fixpoint repeatChar (n : nat) (c : Ascii.ascii) : string :=
  match n with
  | O => EmptyString
  | S n' => String c (repeatChar n' c)
  end.

(** A short first line followed by one long line: 603 characters. *)
Definition headedText : string :=
  "Hi" +:+ String newline (repeatChar 600 "x"%char).

(** The contract of the splitter that [trimPrompt] relies on: the first
    chunk, being a piece of the text, is not longer than the text. *)
Definition first_chunk_within (splitText : Z -> Z -> string -> list string) : Prop :=
  forall (chunkSize : Z) (text chunk : string),
    splitText chunkSize 0 text !! 0%nat = Some chunk ->
    (String.length chunk <= String.length text)%nat.

(** ** Reading the environment *)

(** A variable that is unset or set to the empty string. *)
Definition blank (v : option string) : Prop := v = None \/ v = Some EmptyString.

(** The variables that the module reads through [||]. *)
Definition orVariables : list string :=
  ["OPENAI_ENDPOINT"; "AZURE_KEY"; "AZURE_API_KEY"; "MISTRAL_KEY"; "MISTRAL_API_KEY";
   "OPENAI_MODEL"; "GOOGLE_MODEL"; "AZURE_MODEL"; "MISTRAL_MODEL"].

(** The variables whose value is passed on as it is read. *)
Definition rawVariables : list string :=
  ["OPENAI_KEY"; "GOOGLE_KEY"; "AZURE_RESOURCE_NAME"].


(** * Properties *)

(** ** Strings *)

Lemma is_falsy_true (s : string) : JS.is_falsy s = true <-> s = EmptyString.
Proof. destruct s; simpl; split; congruence. Qed.

Lemma is_falsy_false (s : string) : JS.is_falsy s = false <-> (0 < String.length s)%nat.
Proof. destruct s; simpl; split; (congruence || lia). Qed.

Lemma substring_0_length (s : string) (n : nat) :
  String.length (String.substring 0 n s) = Nat.min n (String.length s).
Proof.
  revert n; induction s as [|c s IH]; intros [|n]; simpl; try reflexivity.
  now rewrite IH.
Qed.

Lemma substring_0_all (s : string) (n : nat) :
  (String.length s <= n)%nat -> String.substring 0 n s = s.
Proof.
  revert n; induction s as [|c s IH]; intros [|n] Hn; simpl in *; try reflexivity; try lia.
  f_equal. apply IH. lia.
Qed.

Lemma append_length (s t : string) :
  String.length (s +:+ t) = (String.length s + String.length t)%nat.
Proof. induction s as [|c s IH]; simpl; [reflexivity | now rewrite IH]. Qed.

(** [s.slice(0, n)] for [n >= 0] keeps the first [n] characters. *)
Lemma slice_0_spec (s : string) (n : Z) :
  0 <= n -> JS.slice s 0 n = String.substring 0 (Z.to_nat n) s.
Proof.
  intros Hn. unfold JS.slice, JS.length.
  destruct (0 <? 0) eqn:E0; [apply Z.ltb_lt in E0; lia |].
  destruct (n <? 0) eqn:En; [apply Z.ltb_lt in En; lia |].
  rewrite Z.min_l by lia. rewrite Z.sub_0_r. rewrite Z.max_l by lia.
  change (Z.to_nat 0) with 0%nat.
  destruct (Z.le_gt_cases n (Z.of_nat (String.length s))) as [Hle | Hgt].
  - now rewrite Z.min_l by lia.
  - rewrite Z.min_r by lia. rewrite Nat2Z.id.
    rewrite !substring_0_all; [reflexivity | lia | lia].
Qed.

Lemma slice_0_length (s : string) (n : Z) :
  0 <= n -> JS.length (JS.slice s 0 n) = Z.min n (JS.length s).
Proof.
  intros Hn. rewrite slice_0_spec by assumption. unfold JS.length.
  rewrite substring_0_length. lia.
Qed.

Lemma slice_0_all (s : string) (n : Z) :
  JS.length s <= n -> JS.slice s 0 n = s.
Proof.
  intros Hn. unfold JS.length in Hn. rewrite slice_0_spec by lia.
  apply substring_0_all. lia.
Qed.

(** ** trimPrompt: the shape of one call *)

Section TrimPromptFacts.

Variable encode : string -> list N.
Variable splitText : Z -> Z -> string -> list string.

Lemma trim_fuel_empty (fuel : nat) (budget : Z) :
  trimPrompt_fuel encode splitText (S fuel) EmptyString budget = Some EmptyString.
Proof. reflexivity. Qed.

Lemma trim_fuel_within (fuel : nat) (text : string) (budget : Z) :
  measure encode text <= budget -> trimPrompt_fuel encode splitText (S fuel) text budget = Some text.
Proof.
  intros Hle. simpl. destruct (JS.is_falsy text) eqn:E.
  - apply is_falsy_true in E. now subst.
  - fold (measure encode text). now rewrite (proj2 (Z.leb_le _ _) Hle).
Qed.

Lemma trim_fuel_floor (fuel : nat) (text : string) (budget : Z) :
  budget < measure encode text -> target_chars encode text budget < MinChunkSize ->
  trimPrompt_fuel encode splitText (S fuel) text budget = Some (JS.slice text 0 MinChunkSize).
Proof.
  intros Hover Hsmall. simpl. destruct (JS.is_falsy text) eqn:E.
  - apply is_falsy_true in E. now subst.
  - fold (measure encode text). rewrite (proj2 (Z.leb_gt _ _) Hover).
    fold (target_chars encode text budget). now rewrite (proj2 (Z.ltb_lt _ _) Hsmall).
Qed.

Lemma trim_fuel_recurse (fuel : nat) (text : string) (budget : Z) :
  budget < measure encode text -> MinChunkSize <= target_chars encode text budget ->
  trimPrompt_fuel encode splitText (S fuel) text budget =
  trimPrompt_fuel encode splitText fuel (nextPrompt encode splitText text budget) budget.
Proof.
  intros Hover Hbig. unfold nextPrompt, candidate. simpl. destruct (JS.is_falsy text) eqn:E.
  - apply is_falsy_true in E. subst. unfold target_chars, JS.length, MinChunkSize in Hbig.
    simpl in Hbig. lia.
  - fold (measure encode text). rewrite (proj2 (Z.leb_gt _ _) Hover).
    fold (target_chars encode text budget). rewrite (proj2 (Z.ltb_ge _ _) Hbig).
    now destruct (_ =? _).
Qed.

(** Every run follows one of four cases: the text is within budget, it is
    clipped to the floor, or the call continues on the hard cut or on the
    candidate.  A property of (text, result) that each case preserves holds
    of every run that returns. *)
Lemma trim_fuel_run_ind (budget : Z) (P : string -> string -> Prop) :
  (forall text, measure encode text <= budget -> P text text) ->
  (forall text,
      budget < measure encode text ->
      target_chars encode text budget < MinChunkSize ->
      P text (JS.slice text 0 MinChunkSize)) ->
  (forall text r,
      budget < measure encode text ->
      MinChunkSize <= target_chars encode text budget ->
      JS.length (candidate encode splitText text budget) = JS.length text ->
      P (JS.slice text 0 (target_chars encode text budget)) r -> P text r) ->
  (forall text r,
      budget < measure encode text ->
      MinChunkSize <= target_chars encode text budget ->
      JS.length (candidate encode splitText text budget) <> JS.length text ->
      P (candidate encode splitText text budget) r -> P text r) ->
  forall fuel text r,
    trimPrompt_fuel encode splitText fuel text budget = Some r -> P text r.
Proof.
  intros Hwithin Hfloor Hcut Hchunk.
  induction fuel as [|fuel IH]; intros text r Hrun; [discriminate |].
  destruct (Z.le_gt_cases (measure encode text) budget) as [Hle | Hover].
  - rewrite trim_fuel_within in Hrun by assumption.
    injection Hrun as <-. now apply Hwithin.
  - destruct (Z.lt_ge_cases (target_chars encode text budget) MinChunkSize) as [Hsmall | Hbig].
    + rewrite trim_fuel_floor in Hrun by assumption.
      injection Hrun as <-. now apply Hfloor.
    + rewrite trim_fuel_recurse in Hrun by assumption. unfold nextPrompt in Hrun.
      destruct (Z.eqb_spec (JS.length (candidate encode splitText text budget)) (JS.length text))
        as [Heq | Hne].
      * apply Hcut; auto.
      * apply Hchunk; auto.
Qed.

(** A run that returns with some depth allowance returns the same text with
    any larger one. *)
Lemma trim_fuel_mono (budget : Z) (n : nat) :
  forall (m : nat) (text r : string),
    (n <= m)%nat ->
    trimPrompt_fuel encode splitText n text budget = Some r ->
    trimPrompt_fuel encode splitText m text budget = Some r.
Proof.
  induction n as [|n IH]; intros m text r Hnm Hrun; [discriminate |].
  destruct m as [|m]; [lia |].
  destruct (Z.le_gt_cases (measure encode text) budget) as [Hle | Hover].
  - rewrite trim_fuel_within in * by assumption. assumption.
  - destruct (Z.lt_ge_cases (target_chars encode text budget) MinChunkSize) as [Hsmall | Hbig].
    + rewrite trim_fuel_floor in * by assumption. assumption.
    + rewrite trim_fuel_recurse in * by assumption.
      apply IH; (lia || assumption).
Qed.

(** A text of at most 140 characters, or one that measures within budget,
    is returned as it is. *)
Lemma trim_fuel_settled (fuel : nat) (text : string) (budget : Z) :
  JS.length text <= MinChunkSize \/ measure encode text <= budget ->
  trimPrompt_fuel encode splitText (S fuel) text budget = Some text.
Proof.
  intros Hsettled.
  destruct (Z.le_gt_cases (measure encode text) budget) as [Hle | Hover].
  - now apply trim_fuel_within.
  - destruct Hsettled as [Hshort | Hle]; [| lia].
    rewrite trim_fuel_floor; try assumption.
    + now rewrite slice_0_all.
    + unfold target_chars. lia.
Qed.

(** Whatever a run returns is at most 140 characters long or measures
    within budget. *)
Lemma trim_fuel_result_settled (budget : Z) (fuel : nat) (text r : string) :
  trimPrompt_fuel encode splitText fuel text budget = Some r ->
  JS.length r <= MinChunkSize \/ measure encode r <= budget.
Proof.
  revert fuel text r. apply trim_fuel_run_ind.
  - intros text Hle. now right.
  - intros text _ _. left. rewrite slice_0_length by (unfold MinChunkSize; lia). lia.
  - intros text r _ _ _ IH. exact IH.
  - intros text r _ _ _ IH. exact IH.
Qed.

(** When the text is over budget the hard cut is strictly shorter than the
    text: at least three characters go for each overflowing token. *)
Lemma hard_cut_shorter (text : string) (budget : Z) :
  budget < measure encode text ->
  MinChunkSize <= target_chars encode text budget ->
  JS.length (JS.slice text 0 (target_chars encode text budget)) < JS.length text.
Proof.
  intros Hover Hbig. unfold MinChunkSize in Hbig.
  rewrite slice_0_length by lia. unfold target_chars in *. lia.
Qed.

Section WithContract.

Hypothesis chunks_within : first_chunk_within splitText.

Lemma candidate_within (text : string) (budget : Z) :
  JS.length (candidate encode splitText text budget) <= JS.length text.
Proof.
  unfold candidate, JS.length.
  destruct (splitText (target_chars encode text budget) 0 text !! 0%nat) as [chunk|] eqn:E; simpl.
  - apply chunks_within in E. lia.
  - lia.
Qed.

(** With chunks that are pieces of the text, every nested call is on a
    strictly shorter text. *)
Lemma nextPrompt_shorter (text : string) (budget : Z) :
  budget < measure encode text ->
  MinChunkSize <= target_chars encode text budget ->
  JS.length (nextPrompt encode splitText text budget) < JS.length text.
Proof.
  intros Hover Hbig. unfold nextPrompt.
  destruct (Z.eqb_spec (JS.length (candidate encode splitText text budget)) (JS.length text))
    as [Heq | Hne].
  - now apply hard_cut_shorter.
  - pose proof (candidate_within text budget). lia.
Qed.

(** So a depth allowance above the number of characters is never used up. *)
Lemma trim_fuel_total (budget : Z) (fuel : nat) :
  forall text : string,
    (String.length text < fuel)%nat ->
    exists r, trimPrompt_fuel encode splitText fuel text budget = Some r.
Proof.
  induction fuel as [|fuel IH]; intros text Hfuel; [lia |].
  destruct (Z.le_gt_cases (measure encode text) budget) as [Hle | Hover].
  - exists text. now apply trim_fuel_within.
  - destruct (Z.lt_ge_cases (target_chars encode text budget) MinChunkSize) as [Hsmall | Hbig].
    + eexists. now apply trim_fuel_floor.
    + rewrite trim_fuel_recurse by assumption. apply IH.
      pose proof (nextPrompt_shorter text budget Hover Hbig) as Hnext.
      unfold JS.length in Hnext. lia.
Qed.

Lemma trim_fuel_not_longer (budget : Z) (fuel : nat) (text r : string) :
  trimPrompt_fuel encode splitText fuel text budget = Some r ->
  JS.length r <= JS.length text.
Proof.
  revert fuel text r. apply trim_fuel_run_ind.
  - intros text _. lia.
  - intros text _ _. rewrite slice_0_length by (unfold MinChunkSize; lia). lia.
  - intros text r Hover Hbig _ IH.
    pose proof (hard_cut_shorter text budget Hover Hbig). lia.
  - intros text r _ _ _ IH.
    pose proof (candidate_within text budget). lia.
Qed.

End WithContract.

End TrimPromptFacts.

(** ** The stand-in splitters keep the contract *)

Lemma flushChunk_elem (cur chunk : string) :
  chunk ∈ flushChunk cur -> chunk = cur.
Proof.
  unfold flushChunk. destruct (JS.is_falsy cur); intros Hin.
  - inversion Hin.
  - now apply list_elem_of_singleton in Hin.
Qed.

(** Every chunk of the pass is made of characters of the pending chunk and
    of the remaining text. *)
Lemma lineSplit_go_within (chunkSize : nat) (text : string) :
  forall cur chunk : string,
    chunk ∈ lineSplit_go chunkSize cur text ->
    (String.length chunk <= String.length cur + String.length text)%nat.
Proof.
  induction text as [|c rest IH]; intros cur chunk Hin; simpl in *.
  - apply flushChunk_elem in Hin. subst. lia.
  - destruct (Ascii.eqb c newline).
    + apply elem_of_app in Hin as [Hin | Hin].
      * apply flushChunk_elem in Hin. subst. lia.
      * apply IH in Hin. simpl in Hin. lia.
    + destruct (chunkSize <=? String.length cur)%nat.
      * apply elem_of_app in Hin as [Hin | Hin].
        -- apply flushChunk_elem in Hin. subst. lia.
        -- apply IH in Hin. simpl in Hin. lia.
      * apply IH in Hin. rewrite append_length in Hin. simpl in Hin. lia.
Qed.

Lemma lineSplitter_within : first_chunk_within lineSplitter.
Proof.
  intros chunkSize text chunk Hfirst. unfold lineSplitter in Hfirst.
  apply list_elem_of_lookup_2 in Hfirst.
  apply lineSplit_go_within in Hfirst. simpl in Hfirst. lia.
Qed.

Lemma wholeSplitter_within : first_chunk_within wholeSplitter.
Proof.
  intros chunkSize text chunk Hfirst. unfold wholeSplitter in Hfirst.
  simpl in Hfirst. injection Hfirst as <-. lia.
Qed.

(** ** Runs on concrete texts *)

Example lineSplitter_lines :
  lineSplitter 5 0 ("ab" +:+ String newline "cdefghijkl" +:+ String newline (String newline "mn"))
  = ["ab"; "cdefg"; "hijkl"; "mn"].
Proof. reflexivity. Qed.

Example groupEncoder_counts :
  List.length (groupEncoder "abcdefghij") = 3%nat /\ List.length (groupEncoder EmptyString) = 0%nat.
Proof. split; reflexivity. Qed.

(** 1000 characters measure 250 tokens; with a budget of 200 the cuts go
    to 850, 811, 802 and 799 characters, where the text fits. *)
Example trimPrompt_converges :
  option_map String.length
    (trimPrompt groupEncoder lineSplitter (repeatChar 1000 "x"%char) 200) = Some 799%nat.
Proof. vm_compute. reflexivity. Qed.

(** The same text through the splitter that cuts nowhere: each step takes
    the hard cut, with the same lengths. *)
Example trimPrompt_hard_cut :
  option_map String.length
    (trimPrompt groupEncoder wholeSplitter (repeatChar 1000 "x"%char) 200) = Some 799%nat.
Proof. vm_compute. reflexivity. Qed.

Example trimPrompt_floor_run :
  option_map String.length
    (trimPrompt groupEncoder lineSplitter (repeatChar 1000 "x"%char) 1) = Some 140%nat.
Proof. vm_compute. reflexivity. Qed.

(** ** getSelectedModel *)

Section ProvidersFacts.

Variable env : gmap string string.

(** The optional handles are null exactly when their key is the empty
    string, that is, when neither environment variable holds a non-empty
    value. *)
Lemma azureModel_null : azureModel env = None <-> azureApiKey env = EmptyString.
Proof.
  unfold azureModel, azureProvider. destruct (azureApiKey env); simpl; split; congruence.
Qed.

Lemma mistralModel_null : mistralModel env = None <-> mistralApiKey env = EmptyString.
Proof.
  unfold mistralModel, mistralProvider. destruct (mistralApiKey env); simpl; split; congruence.
Qed.

Lemma azureApiKey_unset :
  env !! "AZURE_KEY" = None -> env !! "AZURE_API_KEY" = None -> azureApiKey env = EmptyString.
Proof. unfold azureApiKey. now intros -> ->. Qed.

Lemma mistralApiKey_unset :
  env !! "MISTRAL_KEY" = None -> env !! "MISTRAL_API_KEY" = None -> mistralApiKey env = EmptyString.
Proof. unfold mistralApiKey. now intros -> ->. Qed.

Lemma getSelectedModel_openai (out : console) :
  getSelectedModel env "openai" out = (Some (o3MiniModel env), out).
Proof. reflexivity. Qed.

Lemma getSelectedModel_google (out : console) :
  getSelectedModel env "google" out = (Some (googleModel env), out).
Proof. reflexivity. Qed.

Lemma getSelectedModel_azure (out : console) :
  getSelectedModel env "azure" out =
  match azureModel env with
  | Some h => (Some h, out)
  | None => (Some (o3MiniModel env),
             out ++ ["Azure API key not provided. Falling back to OpenAI model."])
  end.
Proof. unfold getSelectedModel. simpl. now destruct (azureModel env). Qed.

Lemma getSelectedModel_mistral (out : console) :
  getSelectedModel env "mistral" out =
  match mistralModel env with
  | Some h => (Some h, out)
  | None => (Some (o3MiniModel env),
             out ++ ["Mistral API key not provided. Falling back to OpenAI model."])
  end.
Proof. unfold getSelectedModel. simpl. now destruct (mistralModel env). Qed.

Lemma getSelectedModel_other (modelType : string) (out : console) :
  modelType <> "openai" -> modelType <> "google" ->
  modelType <> "azure" -> modelType <> "mistral" ->
  getSelectedModel env modelType out = (Some (o3MiniModel env), out).
Proof.
  intros H1 H2 H3 H4. unfold getSelectedModel.
  apply String.eqb_neq in H1, H2, H3, H4. now rewrite H1, H2, H3, H4.
Qed.

End ProvidersFacts.

(** * The claims *)

(** ** trimPrompt *)

(** C1. With a splitter whose first chunk is a piece of the text (so never
    longer than it), [trimPrompt] terminates for every text and every budget
    of at least 1: a call depth above the number of characters is enough,
    and every such depth gives the same result.  The reason is the one the
    claim gives: a call that does not return directly (the text is over
    budget and the target is at least 140) continues on a strictly shorter
    text.  (The proof does not use the bound on the budget;
    [trim_fuel_total] holds for every budget.) *)
Theorem trimPrompt_terminates
    (encode : string -> list N) (splitText : Z -> Z -> string -> list string)
    (text : string) (budget : Z) :
  first_chunk_within splitText ->
  1 <= budget ->
  (exists r : string,
    forall fuel : nat,
      (String.length text < fuel)%nat ->
      trimPrompt_fuel encode splitText fuel text budget = Some r) /\
  (budget < measure encode text ->
   140 <= target_chars encode text budget ->
   JS.length (nextPrompt encode splitText text budget) < JS.length text /\
   forall fuel : nat,
     trimPrompt_fuel encode splitText (S fuel) text budget
       = trimPrompt_fuel encode splitText fuel (nextPrompt encode splitText text budget) budget).
Proof.
  intros Hsplit _. split; cycle 1.
  { intros Hover Hbig. split.
    - now apply nextPrompt_shorter.
    - intros fuel. now apply trim_fuel_recurse. }
  destruct (trim_fuel_total encode splitText Hsplit budget (S (String.length text)) text)
    as [r Hr]; [lia |].
  exists r. intros fuel Hfuel.
  apply (trim_fuel_mono encode splitText budget (S (String.length text))); [lia | exact Hr].
Qed.

Lemma trimPrompt_terminates_witness :
  (exists r : string,
    forall fuel : nat,
      (String.length headedText < fuel)%nat ->
      trimPrompt_fuel groupEncoder lineSplitter fuel headedText 1 = Some r) /\
  JS.length (nextPrompt groupEncoder lineSplitter headedText 1) < JS.length headedText.
Proof.
  destruct (trimPrompt_terminates groupEncoder lineSplitter headedText 1 lineSplitter_within)
    as [Hruns Hstep]; [lia |].
  split; [exact Hruns |].
  apply Hstep; vm_compute; [reflexivity | discriminate].
Defined.

(** C2. With a splitter whose first chunk is a piece of the text,
    [trimPrompt text budget] returns, for every text and every budget, a
    text that is not longer than [text]. *)
Theorem trimPrompt_not_longer
    (encode : string -> list N) (splitText : Z -> Z -> string -> list string)
    (text : string) (budget : Z) :
  first_chunk_within splitText ->
  exists r : string,
    trimPrompt encode splitText text budget = Some r /\
    JS.length r <= JS.length text.
Proof.
  intros Hsplit. unfold trimPrompt.
  destruct (trim_fuel_total encode splitText Hsplit budget (S (String.length text)) text)
    as [r Hr]; [lia |].
  exists r. split; [exact Hr |].
  exact (trim_fuel_not_longer encode splitText Hsplit budget _ text r Hr).
Qed.

Lemma trimPrompt_not_longer_witness :
  exists r : string,
    trimPrompt groupEncoder wholeSplitter headedText 100 = Some r /\
    JS.length r <= JS.length headedText.
Proof.
  apply trimPrompt_not_longer. exact wholeSplitter_within.
Defined.

(** C3. A text whose measured token count is at most the budget is returned
    unchanged, by the first call already (so with any call depth). *)
Theorem trimPrompt_within_budget
    (encode : string -> list N) (splitText : Z -> Z -> string -> list string)
    (text : string) (budget : Z) :
  measure encode text <= budget ->
  trimPrompt encode splitText text budget = Some text /\
  forall fuel : nat, trimPrompt_fuel encode splitText (S fuel) text budget = Some text.
Proof.
  intros Hle. split; [unfold trimPrompt |]; intros; now apply trim_fuel_within.
Qed.

Lemma trimPrompt_within_budget_witness :
  trimPrompt groupEncoder lineSplitter "a short prompt" 4 = Some "a short prompt" /\
  forall fuel : nat,
    trimPrompt_fuel groupEncoder lineSplitter (S fuel) "a short prompt" 4 = Some "a short prompt".
Proof.
  apply trimPrompt_within_budget. vm_compute. discriminate.
Defined.

(** C4. When the text measures more than the budget and
    [target_chars = len(text) - 3 * (measured - budget)] is below 140, the
    result is [text.slice(0, 140)], by the first call already. *)
Theorem trimPrompt_floor
    (encode : string -> list N) (splitText : Z -> Z -> string -> list string)
    (text : string) (budget : Z) :
  budget < measure encode text ->
  target_chars encode text budget < 140 ->
  trimPrompt encode splitText text budget = Some (JS.slice text 0 140) /\
  forall fuel : nat,
    trimPrompt_fuel encode splitText (S fuel) text budget = Some (JS.slice text 0 140).
Proof.
  intros Hover Hsmall. split; [unfold trimPrompt |]; intros; now apply trim_fuel_floor.
Qed.

Lemma trimPrompt_floor_witness :
  trimPrompt groupEncoder lineSplitter (repeatChar 200 "x"%char) 10
    = Some (JS.slice (repeatChar 200 "x"%char) 0 140) /\
  forall fuel : nat,
    trimPrompt_fuel groupEncoder lineSplitter (S fuel) (repeatChar 200 "x"%char) 10
      = Some (JS.slice (repeatChar 200 "x"%char) 0 140).
Proof.
  apply trimPrompt_floor; vm_compute; reflexivity.
Defined.

(** C7. The empty text is returned as the empty text for every budget,
    whatever the encoder and the splitter are: the first call returns
    before either is used. *)
Theorem trimPrompt_empty
    (encode : string -> list N) (splitText : Z -> Z -> string -> list string)
    (budget : Z) :
  trimPrompt encode splitText EmptyString budget = Some EmptyString /\
  forall fuel : nat,
    trimPrompt_fuel encode splitText (S fuel) EmptyString budget = Some EmptyString.
Proof.
  split; [unfold trimPrompt; simpl String.length |]; intros; apply trim_fuel_empty.
Qed.

(** C9. With a splitter whose first chunk is a piece of the text and a
    budget of at least 1, trimming is idempotent: [trimPrompt] returns some
    [r], and trimming [r] again returns [r].  (Every result is at most 140
    characters long or measures within budget, and such a text is returned
    as it is.) *)
Theorem trimPrompt_idempotent
    (encode : string -> list N) (splitText : Z -> Z -> string -> list string)
    (text : string) (budget : Z) :
  first_chunk_within splitText ->
  1 <= budget ->
  exists r : string,
    trimPrompt encode splitText text budget = Some r /\
    trimPrompt encode splitText r budget = Some r.
Proof.
  intros Hsplit _. unfold trimPrompt.
  destruct (trim_fuel_total encode splitText Hsplit budget (S (String.length text)) text)
    as [r Hr]; [lia |].
  exists r. split; [exact Hr |].
  apply trim_fuel_settled.
  exact (trim_fuel_result_settled encode splitText budget _ text r Hr).
Qed.

Lemma trimPrompt_idempotent_witness :
  exists r : string,
    trimPrompt groupEncoder lineSplitter headedText 100 = Some r /\
    trimPrompt groupEncoder lineSplitter r 100 = Some r.
Proof.
  apply trimPrompt_idempotent; [exact lineSplitter_within | lia].
Defined.

(** C5, as the code has it.  With budget 1 and a splitter whose first chunk
    is a piece of the text:
    - a text of at most 140 characters is returned as it is;
    - a text of more than 140 characters that measures more than one token
      gives a result of exactly 140 characters, its first 140, when
      [target_chars] is below 140; in every case the result is at most 140
      characters long or measures at most one token. *)
Theorem trimPrompt_budget_one
    (encode : string -> list N) (splitText : Z -> Z -> string -> list string)
    (text : string) :
  first_chunk_within splitText ->
  (JS.length text <= 140 -> trimPrompt encode splitText text 1 = Some text) /\
  (140 < JS.length text ->
   1 < measure encode text ->
   exists r : string,
     trimPrompt encode splitText text 1 = Some r /\
     (target_chars encode text 1 < 140 -> r = JS.slice text 0 140 /\ JS.length r = 140) /\
     (JS.length r <= 140 \/ measure encode r <= 1)).
Proof.
  intros Hsplit. split.
  - intros Hshort. unfold trimPrompt. apply trim_fuel_settled. now left.
  - intros Hlong Hover. unfold trimPrompt.
    destruct (trim_fuel_total encode splitText Hsplit 1 (S (String.length text)) text)
      as [r Hr]; [lia |].
    exists r. split; [exact Hr |]. split.
    + intros Hsmall. rewrite trim_fuel_floor in Hr by assumption.
      injection Hr as <-. split; [reflexivity |].
      rewrite slice_0_length by (unfold MinChunkSize; lia). unfold MinChunkSize. lia.
    + exact (trim_fuel_result_settled encode splitText 1 _ text r Hr).
Qed.

Lemma trimPrompt_budget_one_witness :
  trimPrompt groupEncoder lineSplitter "a short prompt" 1 = Some "a short prompt" /\
  exists r : string,
    trimPrompt groupEncoder lineSplitter (repeatChar 200 "x"%char) 1 = Some r /\
    r = JS.slice (repeatChar 200 "x"%char) 0 140 /\ JS.length r = 140.
Proof.
  split.
  - apply (trimPrompt_budget_one groupEncoder lineSplitter "a short prompt" lineSplitter_within).
    vm_compute. discriminate.
  - destruct (trimPrompt_budget_one groupEncoder lineSplitter (repeatChar 200 "x"%char)
                lineSplitter_within) as [_ Hlong].
    destruct Hlong as [r [Hr [Hfloor _]]]; [vm_compute; reflexivity | vm_compute; reflexivity |].
    exists r. split; [exact Hr |]. apply Hfloor. vm_compute. reflexivity.
Defined.

(** C5 as stated fails: [headedText] has 603 characters and measures 151
    tokens, so with budget 1 the target is 153 characters; the first chunk
    of the line splitter is the two-character first line, which measures
    one token and is returned.  The result has 2 characters, not 140. *)
Lemma trimPrompt_budget_one_short_chunk :
  first_chunk_within lineSplitter /\
  140 < JS.length headedText /\
  1 < measure groupEncoder headedText /\
  target_chars groupEncoder headedText 1 = 153 /\
  candidate groupEncoder lineSplitter headedText 1 = "Hi" /\
  trimPrompt groupEncoder lineSplitter headedText 1 = Some "Hi" /\
  JS.length "Hi" = 2.
Proof.
  split; [exact lineSplitter_within |].
  vm_compute. repeat split.
Qed.

(** ** getSelectedModel *)

(** C6. When the azure handle is null, [getSelectedModel "azure"] returns
    the handle that [getSelectedModel "openai"] returns and writes exactly
    one warning to the console; likewise for mistral.  The function has no
    error path: it is total. *)
Theorem getSelectedModel_fallback (env : gmap string string) (out : console) :
  (azureModel env = None ->
   (getSelectedModel env "azure" out).1 = (getSelectedModel env "openai" out).1 /\
   (getSelectedModel env "azure" out).2
     = out ++ ["Azure API key not provided. Falling back to OpenAI model."]) /\
  (mistralModel env = None ->
   (getSelectedModel env "mistral" out).1 = (getSelectedModel env "openai" out).1 /\
   (getSelectedModel env "mistral" out).2
     = out ++ ["Mistral API key not provided. Falling back to OpenAI model."]).
Proof.
  split; intros Hnull.
  - rewrite getSelectedModel_azure, getSelectedModel_openai, Hnull. now split.
  - rewrite getSelectedModel_mistral, getSelectedModel_openai, Hnull. now split.
Qed.

(** An environment with the two mandatory keys only. *)
Lemma getSelectedModel_fallback_witness :
  (getSelectedModel (<["OPENAI_KEY" := "sk"]> (<["GOOGLE_KEY" := "gk"]> ∅)) "azure" []).2
    = ["Azure API key not provided. Falling back to OpenAI model."] /\
  (getSelectedModel (<["OPENAI_KEY" := "sk"]> (<["GOOGLE_KEY" := "gk"]> ∅)) "mistral" []).2
    = ["Mistral API key not provided. Falling back to OpenAI model."].
Proof.
  destruct (getSelectedModel_fallback (<["OPENAI_KEY" := "sk"]> (<["GOOGLE_KEY" := "gk"]> ∅)) [])
    as [Hazure Hmistral].
  split.
  - apply Hazure. vm_compute. reflexivity.
  - apply Hmistral. vm_compute. reflexivity.
Defined.

(** C8. An identifier that is none of openai, google, azure and mistral
    gets the handle that [getSelectedModel "openai"] returns, and nothing is
    written to the console. *)
Theorem getSelectedModel_default
    (env : gmap string string) (modelType : string) (out : console) :
  modelType <> "openai" -> modelType <> "google" ->
  modelType <> "azure" -> modelType <> "mistral" ->
  (getSelectedModel env modelType out).1 = (getSelectedModel env "openai" out).1 /\
  (getSelectedModel env modelType out).2 = out.
Proof.
  intros H1 H2 H3 H4.
  rewrite getSelectedModel_other, getSelectedModel_openai by assumption. now split.
Qed.

Lemma getSelectedModel_default_witness :
  (getSelectedModel ∅ "unknown-value" []).1 = (getSelectedModel ∅ "openai" []).1 /\
  (getSelectedModel ∅ "unknown-value" []).2 = [].
Proof.
  apply getSelectedModel_default; discriminate.
Defined.

(** C10. [getSelectedModel] never returns null, for the four identifiers
    and for any other, in every environment, so also in those in which
    [azureModel] or [mistralModel] is null. *)
Theorem getSelectedModel_never_null
    (env : gmap string string) (modelType : string) (out : console) :
  exists h : ModelHandle, (getSelectedModel env modelType out).1 = Some h.
Proof.
  unfold getSelectedModel.
  destruct (String.eqb modelType "openai"); [eauto |].
  destruct (String.eqb modelType "google"); [eauto |].
  destruct (String.eqb modelType "azure").
  { destruct (azureModel env) eqn:E; simpl; eauto. }
  destruct (String.eqb modelType "mistral").
  { destruct (mistralModel env) eqn:E; simpl; eauto. }
  eauto.
Qed.

(** The optional handles are indeed null without their keys. *)
Example optional_handles_null : azureModel ∅ = None /\ mistralModel ∅ = None.
Proof. split; reflexivity. Qed.

Example azure_configured :
  (getSelectedModel (<["AZURE_API_KEY" := "k"]> ∅) "azure" []).1
    = azureModel (<["AZURE_API_KEY" := "k"]> ∅) /\
  (getSelectedModel (<["AZURE_API_KEY" := "k"]> ∅) "azure" []).1
    <> (getSelectedModel (<["AZURE_API_KEY" := "k"]> ∅) "openai" []).1 /\
  (getSelectedModel (<["AZURE_API_KEY" := "k"]> ∅) "azure" []).2 = [].
Proof. vm_compute. repeat split. discriminate. Qed.

(** * Further properties of the code *)

(** ** trimPrompt *)

(** X1. With a splitter whose first chunk is a piece of the text, the
    result of [trimPrompt], for every text and budget, is at most 140
    characters long or measures within the budget: a result that is still
    over budget has been clipped to the floor. *)
Theorem trimPrompt_best_effort
    (encode : string -> list N) (splitText : Z -> Z -> string -> list string)
    (text : string) (budget : Z) :
  first_chunk_within splitText ->
  exists r : string,
    trimPrompt encode splitText text budget = Some r /\
    (JS.length r <= 140 \/ measure encode r <= budget).
Proof.
  intros Hsplit. unfold trimPrompt.
  destruct (trim_fuel_total encode splitText Hsplit budget (S (String.length text)) text)
    as [r Hr]; [lia |].
  exists r. split; [exact Hr |].
  exact (trim_fuel_result_settled encode splitText budget _ text r Hr).
Qed.

Lemma trimPrompt_best_effort_witness :
  exists r : string,
    trimPrompt groupEncoder lineSplitter headedText 100 = Some r /\
    (JS.length r <= 140 \/ measure groupEncoder r <= 100).
Proof.
  apply trimPrompt_best_effort. exact lineSplitter_within.
Defined.

(** X2. A text of at most 140 characters is returned unchanged whatever
    the budget is, also when it measures more than the budget: the estimate
    of characters to keep is then below 140 and clipping to 140 characters
    removes nothing. *)
Theorem trimPrompt_short_unchanged
    (encode : string -> list N) (splitText : Z -> Z -> string -> list string)
    (text : string) (budget : Z) :
  JS.length text <= 140 ->
  trimPrompt encode splitText text budget = Some text.
Proof.
  intros Hshort. unfold trimPrompt. apply trim_fuel_settled. now left.
Qed.

Lemma trimPrompt_short_unchanged_witness :
  2 < measure groupEncoder "a short prompt" /\
  trimPrompt groupEncoder lineSplitter "a short prompt" 2 = Some "a short prompt".
Proof.
  split; [vm_compute; reflexivity |].
  apply trimPrompt_short_unchanged. vm_compute. discriminate.
Defined.

(** X3. With a splitter whose first chunk is a piece of the text, a text
    of more than 140 characters that measures more than the budget comes
    back strictly shorter. *)
Theorem trimPrompt_shortens
    (encode : string -> list N) (splitText : Z -> Z -> string -> list string)
    (text : string) (budget : Z) :
  first_chunk_within splitText ->
  budget < measure encode text ->
  140 < JS.length text ->
  exists r : string,
    trimPrompt encode splitText text budget = Some r /\
    JS.length r < JS.length text.
Proof.
  intros Hsplit Hover Hlong. unfold trimPrompt.
  destruct (trim_fuel_total encode splitText Hsplit budget (S (String.length text)) text)
    as [r Hr]; [lia |].
  exists r. split; [exact Hr |].
  destruct (Z.lt_ge_cases (target_chars encode text budget) MinChunkSize) as [Hsmall | Hbig].
  - rewrite trim_fuel_floor in Hr by assumption. injection Hr as <-.
    rewrite slice_0_length by (unfold MinChunkSize; lia). unfold MinChunkSize. lia.
  - rewrite trim_fuel_recurse in Hr by assumption.
    pose proof (trim_fuel_not_longer encode splitText Hsplit budget _ _ r Hr) as Hle.
    pose proof (nextPrompt_shorter encode splitText Hsplit text budget Hover Hbig) as Hlt.
    lia.
Qed.

Lemma trimPrompt_shortens_witness :
  exists r : string,
    trimPrompt groupEncoder lineSplitter headedText 100 = Some r /\
    JS.length r < JS.length headedText.
Proof.
  apply trimPrompt_shortens; [exact lineSplitter_within | vm_compute; reflexivity ..].
Defined.

(** X4. With a splitter whose first chunk is a piece of the text, a call
    depth of [len(text) - 141] (and at least 1) is enough: a nested call is
    only made on a text of at least 143 characters and is on a shorter
    text.  In particular a text of at most 142 characters is settled by the
    first call, which does not reach the splitter. *)
Theorem trimPrompt_depth_bound
    (encode : string -> list N) (splitText : Z -> Z -> string -> list string)
    (budget : Z) (fuel : nat) (text : string) :
  first_chunk_within splitText ->
  (1 <= fuel)%nat ->
  JS.length text < Z.of_nat fuel + 142 ->
  exists r : string, trimPrompt_fuel encode splitText fuel text budget = Some r.
Proof.
  intros Hsplit. revert text.
  induction fuel as [|fuel IH]; intros text Hpos Hfuel; [lia |].
  destruct (Z.le_gt_cases (measure encode text) budget) as [Hle | Hover].
  - exists text. now apply trim_fuel_within.
  - destruct (Z.lt_ge_cases (target_chars encode text budget) MinChunkSize) as [Hsmall | Hbig].
    + eexists. now apply trim_fuel_floor.
    + rewrite trim_fuel_recurse by assumption.
      pose proof (nextPrompt_shorter encode splitText Hsplit text budget Hover Hbig) as Hnext.
      assert (143 <= JS.length text)
        by (unfold target_chars, MinChunkSize in Hbig; lia).
      apply IH; lia.
Qed.

Lemma trimPrompt_depth_bound_witness :
  JS.length headedText = 603 /\
  exists r : string, trimPrompt_fuel groupEncoder lineSplitter 462 headedText 100 = Some r.
Proof.
  split; [reflexivity |].
  apply trimPrompt_depth_bound; [exact lineSplitter_within | lia | vm_compute; reflexivity].
Defined.

(** X5. With a splitter whose first chunk is a piece of the text, a text
    trimmed to a budget is left as it is by trimming to the same or a
    larger budget. *)
Theorem trimPrompt_larger_budget
    (encode : string -> list N) (splitText : Z -> Z -> string -> list string)
    (text : string) (budget budget' : Z) :
  first_chunk_within splitText ->
  budget <= budget' ->
  exists r : string,
    trimPrompt encode splitText text budget = Some r /\
    trimPrompt encode splitText r budget' = Some r.
Proof.
  intros Hsplit Hle. unfold trimPrompt.
  destruct (trim_fuel_total encode splitText Hsplit budget (S (String.length text)) text)
    as [r Hr]; [lia |].
  exists r. split; [exact Hr |].
  apply trim_fuel_settled.
  destruct (trim_fuel_result_settled encode splitText budget _ text r Hr); [now left | right; lia].
Qed.

Lemma trimPrompt_larger_budget_witness :
  exists r : string,
    trimPrompt groupEncoder lineSplitter (repeatChar 1000 "x"%char) 200 = Some r /\
    trimPrompt groupEncoder lineSplitter r 230 = Some r.
Proof.
  apply trimPrompt_larger_budget; [exact lineSplitter_within | lia].
Defined.

(** ** The environment and the handles *)

Lemma or_else_norm (a b : option string) (d : string) :
  JS.or a None = JS.or b None -> JS.or_else a d = JS.or_else b d.
Proof.
  destruct a as [[|c s]|], b as [[|c' s']|]; simpl; intros H; congruence.
Qed.

Lemma or_else_or_norm (a a' b b' : option string) (d : string) :
  JS.or a None = JS.or a' None ->
  JS.or b None = JS.or b' None ->
  JS.or_else (JS.or a b) d = JS.or_else (JS.or a' b') d.
Proof.
  destruct a as [[|c s]|], a' as [[|c' s']|]; simpl; intros Ha Hb;
    try congruence; now apply or_else_norm.
Qed.

Lemma blank_norm (a : option string) : blank a <-> JS.or a None = None.
Proof.
  unfold blank. destruct a as [[|c s]|]; simpl; split; intros H;
    try tauto; try congruence; destruct H; congruence.
Qed.

Lemma or_variables_not_raw (k v : string) :
  k ∈ orVariables -> v ∈ rawVariables -> k <> v.
Proof.
  intros Hk Hv ->. apply list_elem_of_In in Hk, Hv.
  simpl in Hk, Hv. intuition congruence.
Qed.

(** The handles are determined by the three variables passed on as read
    and, for the variables read through [||], by their non-empty values. *)
Lemma handles_env_ext (env1 env2 : gmap string string) :
  (forall v, v ∈ rawVariables -> env1 !! v = env2 !! v) ->
  (forall v, v ∈ orVariables -> JS.or (env1 !! v) None = JS.or (env2 !! v) None) ->
  o3MiniModel env1 = o3MiniModel env2 /\ googleModel env1 = googleModel env2 /\
  azureModel env1 = azureModel env2 /\ mistralModel env1 = mistralModel env2.
Proof.
  intros Hraw Hor.
  assert (Hr : forall v, In v rawVariables -> env1 !! v = env2 !! v)
    by (intros v Hv; apply Hraw, list_elem_of_In, Hv).
  assert (Ho : forall v d, In v orVariables ->
                           JS.or_else (env1 !! v) d = JS.or_else (env2 !! v) d)
    by (intros v d Hv; apply or_else_norm, Hor, list_elem_of_In, Hv).
  assert (Hazure : azureApiKey env1 = azureApiKey env2)
    by (apply or_else_or_norm; apply Hor, list_elem_of_In; simpl; tauto).
  assert (Hmistral : mistralApiKey env1 = mistralApiKey env2)
    by (apply or_else_or_norm; apply Hor, list_elem_of_In; simpl; tauto).
  assert (Hopenai : openai env1 = openai env2).
  { unfold openai. rewrite (Hr "OPENAI_KEY"), (Ho "OPENAI_ENDPOINT") by (simpl; tauto).
    reflexivity. }
  assert (Hmodel : customModel env1 = customModel env2)
    by (apply Ho; simpl; tauto).
  repeat split.
  - unfold o3MiniModel. now rewrite Hopenai, Hmodel.
  - unfold googleModel, google, customGoogleModel.
    rewrite (Hr "GOOGLE_KEY"), (Ho "GOOGLE_MODEL") by (simpl; tauto). reflexivity.
  - unfold azureModel, azureProvider, customAzureModel.
    rewrite Hazure, (Hr "AZURE_RESOURCE_NAME"), (Ho "AZURE_MODEL") by (simpl; tauto).
    reflexivity.
  - unfold mistralModel, mistralProvider, customMistralModel.
    rewrite Hmistral, (Ho "MISTRAL_MODEL") by (simpl; tauto). reflexivity.
Qed.

Lemma getSelectedModel_env_ext (env1 env2 : gmap string string) :
  (forall v, v ∈ rawVariables -> env1 !! v = env2 !! v) ->
  (forall v, v ∈ orVariables -> JS.or (env1 !! v) None = JS.or (env2 !! v) None) ->
  forall (modelType : string) (out : console),
    getSelectedModel env1 modelType out = getSelectedModel env2 modelType out.
Proof.
  intros Hraw Hor modelType out.
  destruct (handles_env_ext env1 env2 Hraw Hor) as (Ho & Hg & Ha & Hm).
  unfold getSelectedModel. now rewrite Ho, Hg, Ha, Hm.
Qed.

Lemma prefix_o (s : string) :
  JS.startsWith s "o" = true <-> exists rest, s = String "o"%char rest.
Proof.
  unfold JS.startsWith. rewrite String.prefix_correct.
  destruct s as [|c rest]; simpl.
  - split; [discriminate | intros [rest H]; discriminate].
  - split.
    + intros H. injection H as -> _. eauto.
    + intros [rest' H]. injection H as -> _. now destruct rest.
Qed.

Lemma console_warn_changes (msg : string) (out : console) : out ++ [msg] <> out.
Proof.
  intros H. apply (f_equal List.length) in H. rewrite length_app in H. simpl in H. lia.
Qed.

(** X6. The azure handle is null exactly when [AZURE_KEY] and
    [AZURE_API_KEY] are both unset or empty, and the mistral handle exactly
    when [MISTRAL_KEY] and [MISTRAL_API_KEY] are. *)
Theorem optional_handles_null_iff (env : gmap string string) :
  (azureModel env = None <->
   blank (env !! "AZURE_KEY") /\ blank (env !! "AZURE_API_KEY")) /\
  (mistralModel env = None <->
   blank (env !! "MISTRAL_KEY") /\ blank (env !! "MISTRAL_API_KEY")).
Proof.
  split.
  - rewrite azureModel_null. unfold azureApiKey, blank.
    destruct (env !! "AZURE_KEY") as [[|c s]|], (env !! "AZURE_API_KEY") as [[|c' s']|];
      simpl; split; intros H; try discriminate; try (split; auto; fail);
      destruct H as [[H1 | H1] [H2 | H2]]; congruence.
  - rewrite mistralModel_null. unfold mistralApiKey, blank.
    destruct (env !! "MISTRAL_KEY") as [[|c s]|], (env !! "MISTRAL_API_KEY") as [[|c' s']|];
      simpl; split; intros H; try discriminate; try (split; auto; fail);
      destruct H as [[H1 | H1] [H2 | H2]]; congruence.
Qed.

(** X7. The key of the azure handle is [AZURE_KEY] when that is non-empty,
    whatever [AZURE_API_KEY] holds, and [AZURE_API_KEY] when [AZURE_KEY] is
    unset or empty; the same for mistral with [MISTRAL_KEY] and
    [MISTRAL_API_KEY]. *)
Theorem optional_key_precedence (env : gmap string string) (k : string) :
  k <> EmptyString ->
  (env !! "AZURE_KEY" = Some k \/
   (blank (env !! "AZURE_KEY") /\ env !! "AZURE_API_KEY" = Some k) ->
   exists h, azureModel env = Some h /\
             providerKind (handleProvider h) = AzureProvider /\
             apiKey (handleProvider h) = Some k) /\
  (env !! "MISTRAL_KEY" = Some k \/
   (blank (env !! "MISTRAL_KEY") /\ env !! "MISTRAL_API_KEY" = Some k) ->
   exists h, mistralModel env = Some h /\
             providerKind (handleProvider h) = MistralProvider /\
             apiKey (handleProvider h) = Some k).
Proof.
  intros Hk. destruct k as [|c s]; [congruence |]. split.
  - intros Hkey.
    assert (Hval : azureApiKey env = String c s).
    { unfold azureApiKey. destruct Hkey as [-> | [[-> | ->] ->]]; reflexivity. }
    unfold azureModel, azureProvider. rewrite Hval. simpl. eauto.
  - intros Hkey.
    assert (Hval : mistralApiKey env = String c s).
    { unfold mistralApiKey. destruct Hkey as [-> | [[-> | ->] ->]]; reflexivity. }
    unfold mistralModel, mistralProvider. rewrite Hval. simpl. eauto.
Qed.

Lemma optional_key_precedence_witness :
  (exists h, azureModel (<["AZURE_KEY" := "first"]> (<["AZURE_API_KEY" := "second"]> ∅)) = Some h /\
             providerKind (handleProvider h) = AzureProvider /\
             apiKey (handleProvider h) = Some "first") /\
  (exists h, mistralModel (<["MISTRAL_KEY" := ""]> (<["MISTRAL_API_KEY" := "first"]> ∅)) = Some h /\
             providerKind (handleProvider h) = MistralProvider /\
             apiKey (handleProvider h) = Some "first").
Proof.
  split.
  - apply (optional_key_precedence
             (<["AZURE_KEY" := "first"]> (<["AZURE_API_KEY" := "second"]> ∅)) "first");
      [discriminate | left; reflexivity].
  - apply (optional_key_precedence
             (<["MISTRAL_KEY" := ""]> (<["MISTRAL_API_KEY" := "first"]> ∅)) "first");
      [discriminate | right; split; [right |]; reflexivity].
Defined.


(** X9. A call changes the console exactly when it falls back: the request
    is for azure and the azure handle is null, or it is for mistral and the
    mistral handle is null. *)
Theorem getSelectedModel_warns_iff
    (env : gmap string string) (modelType : string) (out : console) :
  (getSelectedModel env modelType out).2 <> out <->
  (modelType = "azure" /\ azureModel env = None) \/
  (modelType = "mistral" /\ mistralModel env = None).
Proof.
  unfold getSelectedModel.
  destruct (String.eqb_spec modelType "openai") as [-> | H1].
  { simpl. split; [congruence | intros [[H _] | [H _]]; discriminate]. }
  destruct (String.eqb_spec modelType "google") as [-> | H2].
  { simpl. split; [congruence | intros [[H _] | [H _]]; discriminate]. }
  destruct (String.eqb_spec modelType "azure") as [-> | H3].
  { destruct (azureModel env) eqn:E; simpl.
    - split; [congruence | intros [[_ H] | [H _]]; discriminate].
    - split; [auto | intros _; apply console_warn_changes]. }
  destruct (String.eqb_spec modelType "mistral") as [-> | H4].
  { destruct (mistralModel env) eqn:E; simpl.
    - split; [congruence | intros [[H _] | [_ H]]; discriminate].
    - split; [auto | intros _; apply console_warn_changes]. }
  simpl. split; [congruence | intros [[H _] | [H _]]; congruence].
Qed.

(** X10. The handle returned does not depend on the console, and a call
    appends the same lines, at most one, whatever the console holds: a
    fallback warns on every call, not once. *)
Theorem getSelectedModel_appends (env : gmap string string) (modelType : string) :
  exists (h : ModelHandle) (ws : list string),
    (List.length ws <= 1)%nat /\
    forall out : console, getSelectedModel env modelType out = (Some h, out ++ ws).
Proof.
  unfold getSelectedModel, console_warn.
  destruct (String.eqb modelType "openai").
  { eexists _, []. split; [simpl; lia | intros; now rewrite app_nil_r]. }
  destruct (String.eqb modelType "google").
  { eexists _, []. split; [simpl; lia | intros; now rewrite app_nil_r]. }
  destruct (String.eqb modelType "azure").
  { destruct (azureModel env).
    - eexists _, []. split; [simpl; lia | intros; now rewrite app_nil_r].
    - eexists _, [_]. split; [simpl; lia | reflexivity]. }
  destruct (String.eqb modelType "mistral").
  { destruct (mistralModel env).
    - eexists _, []. split; [simpl; lia | intros; now rewrite app_nil_r].
    - eexists _, [_]. split; [simpl; lia | reflexivity]. }
  eexists _, []. split; [simpl; lia | intros; now rewrite app_nil_r].
Qed.

(** X11. For each variable read through [||], setting it to the empty
    string is the same as leaving it unset: [getSelectedModel] behaves the
    same in both environments. *)
Theorem getSelectedModel_empty_is_unset
    (env : gmap string string) (k modelType : string) (out : console) :
  k ∈ orVariables ->
  getSelectedModel (<[k := EmptyString]> env) modelType out
    = getSelectedModel (delete k env) modelType out.
Proof.
  intros Hk. apply getSelectedModel_env_ext.
  - intros v Hv. pose proof (or_variables_not_raw k v Hk Hv) as Hne.
    now rewrite lookup_insert_ne, lookup_delete_ne.
  - intros v _. destruct (decide (k = v)) as [-> | Hne].
    + now rewrite lookup_insert_eq, lookup_delete_eq.
    + now rewrite lookup_insert_ne, lookup_delete_ne.
Qed.

Lemma getSelectedModel_empty_is_unset_witness :
  getSelectedModel (<["AZURE_KEY" := EmptyString]> (<["AZURE_KEY" := "old"]> ∅)) "azure" []
    = getSelectedModel (delete "AZURE_KEY" (<["AZURE_KEY" := "old"]> ∅)) "azure" [].
Proof.
  apply getSelectedModel_empty_is_unset.
  apply list_elem_of_In. simpl. tauto.
Defined.

(** X12. A variable that is none of the twelve the handles are built
    from plays no part: setting it to any value leaves [getSelectedModel]
    as it is. *)
Theorem getSelectedModel_unread_variable
    (env : gmap string string) (k x modelType : string) (out : console) :
  k ∉ rawVariables ->
  k ∉ orVariables ->
  getSelectedModel (<[k := x]> env) modelType out = getSelectedModel env modelType out.
Proof.
  intros Hraw Hor. apply getSelectedModel_env_ext.
  - intros v Hv. rewrite lookup_insert_ne; [reflexivity | intros ->; contradiction].
  - intros v Hv. rewrite lookup_insert_ne; [reflexivity | intros ->; contradiction].
Qed.

Lemma getSelectedModel_unread_variable_witness :
  getSelectedModel (<["CONTEXT_SIZE" := "1000"]> ∅) "mistral" []
    = getSelectedModel ∅ "mistral" [].
Proof.
  apply getSelectedModel_unread_variable;
    intros H; apply list_elem_of_In in H; simpl in H; intuition discriminate.
Defined.

(** X13. The OpenAI handle asks for structured outputs, and for the
    reasoning effort "medium" exactly when its model name begins with the
    letter o; otherwise it leaves the reasoning effort out.  With
    [OPENAI_MODEL] unset or empty the model is o3-mini, with effort
    "medium". *)
Theorem o3MiniModel_reasoning (env : gmap string string) :
  exists st : ModelSettings,
    handleSettings (o3MiniModel env) = Some st /\
    structuredOutputs st = Some true /\
    ((exists rest, modelId (o3MiniModel env) = String "o"%char rest) ->
     reasoningEffort st = Some "medium") /\
    (~ (exists rest, modelId (o3MiniModel env) = String "o"%char rest) ->
     reasoningEffort st = None) /\
    (blank (env !! "OPENAI_MODEL") ->
     modelId (o3MiniModel env) = "o3-mini" /\ reasoningEffort st = Some "medium").
Proof.
  unfold o3MiniModel. simpl. eexists. split; [reflexivity |]. simpl.
  split; [reflexivity |]. repeat split.
  - intros Ho. apply prefix_o in Ho. now rewrite Ho.
  - intros Hno. destruct (JS.startsWith (customModel env) "o") eqn:E; [| reflexivity].
    apply prefix_o in E. contradiction.
  - unfold customModel. destruct H as [-> | ->]; reflexivity.
  - unfold customModel. destruct H as [-> | ->]; reflexivity.
Qed.

Lemma o3MiniModel_reasoning_witness :
  exists st : ModelSettings,
    handleSettings (o3MiniModel (<["OPENAI_MODEL" := "gpt-4o"]> ∅)) = Some st /\
    reasoningEffort st = None.
Proof.
  destruct (o3MiniModel_reasoning (<["OPENAI_MODEL" := "gpt-4o"]> ∅))
    as [st (Hst & _ & _ & Hnone & _)].
  exists st. split; [exact Hst |].
  apply Hnone. intros [rest H]. vm_compute in H. discriminate.
Defined.

(** ** What trimPrompt takes from its collaborators *)

(** X14. [trimPrompt] uses the encoder only for the number of tokens and
    the splitter only for its first chunk: two encoders that give the same
    counts and two splitters that give the same first chunk (at overlap 0)
    give the same result at every call depth. *)
Theorem trimPrompt_count_and_first_chunk
    (encode1 encode2 : string -> list N)
    (splitText1 splitText2 : Z -> Z -> string -> list string)
    (fuel : nat) (text : string) (budget : Z) :
  (forall t, List.length (encode1 t) = List.length (encode2 t)) ->
  (forall chunkSize t, splitText1 chunkSize 0 t !! 0%nat = splitText2 chunkSize 0 t !! 0%nat) ->
  trimPrompt_fuel encode1 splitText1 fuel text budget
    = trimPrompt_fuel encode2 splitText2 fuel text budget.
Proof.
  intros Hcount Hfirst. revert text.
  induction fuel as [|fuel IH]; intros text; [reflexivity |].
  simpl. rewrite Hcount, Hfirst.
  destruct (JS.is_falsy text); [reflexivity |].
  destruct (_ <=? budget); [reflexivity |].
  destruct (_ <? MinChunkSize); [reflexivity |].
  destruct (_ =? JS.length text); apply IH.
Qed.

Lemma trimPrompt_count_and_first_chunk_witness :
  trimPrompt_fuel groupEncoder lineSplitter 10 headedText 100
    = trimPrompt_fuel (fun t => (fun _ => 0%N) <$> groupEncoder t)
                      (fun chunkSize chunkOverlap t => take 1 (lineSplitter chunkSize chunkOverlap t))
                      10 headedText 100.
Proof.
  apply trimPrompt_count_and_first_chunk.
  - intros t. now rewrite length_fmap.
  - intros chunkSize t. now rewrite lookup_take_lt by lia.
Defined.

(** X15. When the text is over budget, the estimate of characters to keep
    is at least 140 and the splitter gives no chunk at all, the result is
    the empty text. *)
Theorem trimPrompt_no_chunks
    (encode : string -> list N) (splitText : Z -> Z -> string -> list string)
    (text : string) (budget : Z) :
  budget < measure encode text ->
  140 <= target_chars encode text budget ->
  splitText (target_chars encode text budget) 0 text = [] ->
  trimPrompt encode splitText text budget = Some EmptyString.
Proof.
  intros Hover Hbig Hnone. unfold trimPrompt.
  rewrite trim_fuel_recurse by assumption.
  assert (Hlen : 143 <= JS.length text) by (unfold target_chars in Hbig; lia).
  unfold nextPrompt, candidate. rewrite Hnone. simpl default.
  destruct (Z.eqb_spec (JS.length EmptyString) (JS.length text)) as [Heq | _].
  - unfold JS.length in Heq, Hlen. simpl in Heq. lia.
  - destruct (String.length text) as [|n] eqn:E.
    + unfold JS.length in Hlen. rewrite E in Hlen. simpl in Hlen. lia.
    + apply trim_fuel_empty.
Qed.

(** A text of 600 line breaks: the line splitter finds no chunk in it. *)
Lemma trimPrompt_no_chunks_witness :
  trimPrompt groupEncoder lineSplitter (repeatChar 600 newline) 1 = Some EmptyString.
Proof.
  apply trimPrompt_no_chunks; vm_compute; (reflexivity || discriminate).
Defined.
